(** * The [livy_server] management command

    A shallow embedding of
    [apps/spark/src/spark/management/commands/livy_server.py]: the Django
    management command that starts the Livy server by replacing the
    current process with [java/bin/livy-server].

    The command is glue around a few library calls ([str.lower],
    [os.path.join] and [os.path.dirname], [os.environ.copy], the [%]
    operator with [%r], [LOG.info] and [os.execve]).  The first part of the file
    embeds those primitives as CPython 2.7 defines them on POSIX (byte
    strings, [posixpath]); the second part embeds [Command.handle] on top
    of a small state-and-exception monad over a world made of a heap of
    dict objects, the order in which each dict is iterated, and a history
    of the observable events. *)

From Stdlib Require Import Ascii.
From stdpp Require Import base option list strings gmap fin_maps sorting.

(** ** Byte strings *)

Module Str.

(** [str.lower] on a byte string in the C locale: the bytes [A]-[Z] are
    moved to [a]-[z], every other byte is kept. *)
Definition is_upper (c : ascii) : bool :=
  let n := nat_of_ascii c in bool_decide (65 ≤ n) && bool_decide (n ≤ 90).

Definition lower_char (c : ascii) : ascii :=
  if is_upper c then ascii_of_nat (nat_of_ascii c + 32) else c.

Fixpoint lower (s : string) : string :=
  match s with
  | EmptyString => EmptyString
  | String c r => String (lower_char c) (lower r)
  end.

(** [s.startswith('/')] and [s.endswith('/')]. *)
Definition startswith_slash (s : string) : bool :=
  match s with
  | String c _ => bool_decide (c = "/"%char)
  | EmptyString => false
  end.

Fixpoint endswith_slash (s : string) : bool :=
  match s with
  | EmptyString => false
  | String c EmptyString => bool_decide (c = "/"%char)
  | String _ r => endswith_slash r
  end.

(** ['/' in s]. *)
Fixpoint has_slash (s : string) : bool :=
  match s with
  | EmptyString => false
  | String c r => bool_decide (c = "/"%char) || has_slash r
  end.

(** [s == '/' * len(s)]. *)
Fixpoint all_slashes (s : string) : bool :=
  match s with
  | EmptyString => true
  | String c r => bool_decide (c = "/"%char) && all_slashes r
  end.

(** [s.rstrip('/')]. *)
Fixpoint rstrip_slash (s : string) : string :=
  match s with
  | EmptyString => EmptyString
  | String c r => if all_slashes (String c r) then EmptyString
                  else String c (rstrip_slash r)
  end.

(** [s[:s.rfind('/') + 1]]: the prefix of [s] up to and including its last
    slash, empty when [s] has none. *)
Fixpoint upto_last_slash (s : string) : string :=
  match s with
  | EmptyString => EmptyString
  | String c r => if has_slash (String c r) then String c (upto_last_slash r)
                  else EmptyString
  end.




End Str.

(** ** [posixpath] *)

Module posixpath.

(** One round of the loop of [join]: [path] is the path built so far and
    [b] the next component. *)
Definition join_step (path b : string) : string :=
  if Str.startswith_slash b then b
  else if bool_decide (path = "") || Str.endswith_slash path then path +:+ b
  else path +:+ "/" +:+ b.

(** [join(a, *p)]. *)
Definition join (a : string) (p : list string) : string :=
  foldl join_step a p.

(** [dirname(p)]. *)
Definition dirname (p : string) : string :=
  let head := Str.upto_last_slash p in
  if negb (bool_decide (head = "")) && negb (Str.all_slashes head)
  then Str.rstrip_slash head
  else head.

End posixpath.

(** ** [repr] and the [%] operator *)

Module Repr.

Definition squote : ascii := "'"%char.
Definition dquote : ascii := "034"%char.
Definition backslash : ascii := "\"%char.

Fixpoint has_char (c : ascii) (s : string) : bool :=
  match s with
  | EmptyString => false
  | String c' r => bool_decide (c' = c) || has_char c r
  end.

(** The quote [repr] puts around a [str]: a single quote, unless the
    string holds a single quote and no double quote. *)
Definition quote_for (s : string) : ascii :=
  if has_char squote s && negb (has_char dquote s) then dquote else squote.

Definition hex_digit (n : nat) : ascii :=
  match n with
  | 0 => "0" | 1 => "1" | 2 => "2" | 3 => "3" | 4 => "4" | 5 => "5"
  | 6 => "6" | 7 => "7" | 8 => "8" | 9 => "9" | 10 => "a" | 11 => "b"
  | 12 => "c" | 13 => "d" | 14 => "e" | _ => "f"
  end%char.

(** How [repr] writes one byte inside the quotes. *)
Definition escape_char (quote c : ascii) : string :=
  let n := nat_of_ascii c in
  if bool_decide (c = quote) || bool_decide (c = backslash)
  then String backslash (String c "")
  else if bool_decide (c = "009"%char) then "\t"
  else if bool_decide (c = "010"%char) then "\n"
  else if bool_decide (c = "013"%char) then "\r"
  else if bool_decide (n < 32) || bool_decide (127 ≤ n)
  then String backslash
         (String "x" (String (hex_digit (n / 16)) (String (hex_digit (n mod 16)) "")))
  else String c "".

Fixpoint escape (quote : ascii) (s : string) : string :=
  match s with
  | EmptyString => EmptyString
  | String c r => escape_char quote c +:+ escape quote r
  end.

(** [repr(s)] for a [str]. *)
Definition repr_str (s : string) : string :=
  let q := quote_for s in String q (escape q s +:+ String q "").

(** [sep.join(l)]. *)
Fixpoint join_with (sep : string) (l : list string) : string :=
  match l with
  | [] => ""
  | [x] => x
  | x :: r => x +:+ sep +:+ join_with sep r
  end.

(** [repr(l)] for a list of [str]. *)
Definition repr_list (l : list string) : string :=
  "[" +:+ join_with ", " (repr_str <$> l) +:+ "]".

Definition repr_item (kv : string * string) : string :=
  repr_str kv.1 +:+ ": " +:+ repr_str kv.2.

(** [repr(d)] for a dict from [str] to [str] whose items are [items],
    in the order in which the dict is iterated. *)
Definition repr_dict (items : list (string * string)) : string :=
  "{" +:+ join_with ", " (repr_item <$> items) +:+ "}".

(** [repr] of a builtin function, as for the builtin [bin]. *)
Definition repr_builtin (name : string) : string :=
  "<built-in function " +:+ name +:+ ">".

End Repr.

(** ** The runtime: objects, events, outcomes *)

Module Py.

(** Addresses of objects. *)
Definition loc := nat.

(** The exceptions the embedded primitives raise.  [OSError] carries the
    [errno] of the failed system call. *)
Inductive Exn :=
| TypeError
| ValueError
| IndexError
| SystemError
| OSError (errno : nat).

(** The levels of [logging]. *)
Inductive Level := DEBUG | INFO | WARNING | ERROR | CRITICAL.

(** What the process does that can be seen from outside, in order: a
    record handed to the module's logger, and a call of [os.execve] with
    the file, the argument vector, the dict object given as environment
    and what that dict holds when the call is made. *)
Inductive Event :=
| EvLog (level : Level) (msg : string)
| EvExecve (path : string) (argv : list string) (env : loc)
           (environment : gmap string string).

(** The world the command runs in: the dict objects that exist, the
    address of the one behind [os.environ], what the operating system
    answers to an [execve] ([None]: the process image is replaced,
    [Some errno]: the call fails), the place of each key in the iteration
    order of the dict at an address (the slot of the key in the hash
    table of that dict for CPython 2.7, its rank of insertion since 3.7),
    the iteration order a copy of a dict gets, from the order and the
    items of the dict copied (the same order since 3.7; for 2.7 the slots
    the keys take when put in that order into a new table), and the
    events so far. *)
Record World := mkWorld {
  heap : gmap loc (gmap string string);
  os_environ : loc;
  execve_result : string → list string → gmap string string → option nat;
  dict_rank : loc → string → nat;
  copy_rank : (string → nat) → gmap string string → string → nat;
  trace : list Event
}.

(** How a computation ends: with a value, with an exception that
    propagates, or with the process replaced by another program. *)
Inductive Outcome (A : Type) :=
| Returned (a : A)
| Raised (e : Exn)
| Replaced (path : string) (argv : list string) (environment : gmap string string).
Arguments Returned {A} a.
Arguments Raised {A} e.
Arguments Replaced {A} path argv environment.

Definition M (A : Type) : Type := World → Outcome A * World.

#[global] Instance M_ret : MRet M := λ A a w, (Returned a, w).

#[global] Instance M_bind : MBind M := λ A B k m w,
  match m w with
  | (Returned a, w') => k a w'
  | (Raised e, w') => (Raised e, w')
  | (Replaced p v d, w') => (Replaced p v d, w')
  end.

Definition raise {A} (e : Exn) : M A := λ w, (Raised e, w).

(** Reading the dict at an address; an address that holds nothing is an
    interpreter error. *)
Definition load (l : loc) : M (gmap string string) := λ w,
  match heap w !! l with
  | Some d => (Returned d, w)
  | None => (Raised SystemError, w)
  end.

(** A new dict object with the items [d], iterated in the order [rank],
    at an address not in use. *)
Definition alloc (d : gmap string string) (rank : string → nat) : M loc := λ w,
  let l := fresh (dom (heap w)) in
  (Returned l,
   {| heap := <[l := d]> (heap w); os_environ := os_environ w;
      execve_result := execve_result w;
      dict_rank := λ l', if bool_decide (l' = l) then rank else dict_rank w l';
      copy_rank := copy_rank w; trace := trace w |}).

(** The iteration order of a copy of the dict at an address, holding
    [d]. *)
Definition rank_of_copy (l : loc) (d : gmap string string)
    : M (string → nat) := λ w,
  (Returned (copy_rank w (dict_rank w l) d), w).

(** [d.copy()]: a new dict with the items of [d]. *)
Definition dict_copy (l : loc) : M loc :=
  d ← load l; rank ← rank_of_copy l d; alloc d rank.

(** The module attribute [os.environ]. *)
Definition get_os_environ : M loc := λ w, (Returned (os_environ w), w).

(** [l[i]] on a list. *)
Definition getitem (l : list string) (i : nat) : M string :=
  match l !! i with
  | Some x => mret x
  | None => raise IndexError
  end.

(** The values the command formats. *)
Inductive Val :=
| VBuiltin (name : string)
| VStr (s : string)
| VList (l : list string)
| VDict (l : loc).

(** The items of a dict in the order of the ranks of their keys. *)
Definition items_by_rank (rank : string → nat) (d : gmap string string)
    : list (string * string) :=
  @merge_sort _ (λ a b, rank a.1 ≤ rank b.1)
    (λ a b, decide (rank a.1 ≤ rank b.1)) (map_to_list d).

(** [d.items()] for the dict at an address, holding [d]: its items in
    the iteration order of that dict. *)
Definition dict_items (l : loc) (d : gmap string string)
    : M (list (string * string)) := λ w,
  (Returned (items_by_rank (dict_rank w l) d), w).

(** [repr(v)]. *)
Definition repr (v : Val) : M string :=
  match v with
  | VBuiltin name => mret (Repr.repr_builtin name)
  | VStr s => mret (Repr.repr_str s)
  | VList l => mret (Repr.repr_list l)
  | VDict l => d ← load l; items ← dict_items l d; mret (Repr.repr_dict items)
  end.

(** [fmt % vals] for a tuple [vals], with the conversions [%r] and [%%]. *)
Fixpoint percent_format (fmt : string) (vals : list Val) : M string :=
  match fmt with
  | EmptyString =>
      match vals with
      | [] => mret ""
      | _ :: _ => raise TypeError
      end
  | String c rest =>
      if bool_decide (c = "%"%char) then
        match rest with
        | EmptyString => raise ValueError
        | String conv rest' =>
            if bool_decide (conv = "r"%char) then
              match vals with
              | v :: vals' =>
                  s ← repr v; t ← percent_format rest' vals'; mret (s +:+ t)
              | [] => raise TypeError
              end
            else if bool_decide (conv = "%"%char) then
              t ← percent_format rest' vals; mret (String "%" t)
            else raise ValueError
        end
      else t ← percent_format rest vals; mret (String c t)
  end.

(** [logger.log(level, msg)]: the record is handed to the logger. *)
Definition log (level : Level) (msg : string) : M unit := λ w,
  (Returned (),
   {| heap := heap w; os_environ := os_environ w;
      execve_result := execve_result w;
      dict_rank := dict_rank w;
      copy_rank := copy_rank w;
      trace := trace w ++ [EvLog level msg] |}).

(** A string with a NUL byte: one that cannot be made a C string. *)
Definition has_nul (s : string) : bool := Repr.has_char "000"%char s.

(** Whether some string of a call of [os.execve] has a NUL byte: the
    path, an element of the argument vector, or a key or a value of the
    environment. *)
Definition call_has_nul (path : string) (argv : list string)
    (d : gmap string string) : bool :=
  has_nul path
  || existsb has_nul argv
  || existsb (λ kv, has_nul kv.1 || has_nul kv.2) (map_to_list d).

(** The call of [os.execve], once the environment dict has been read:
    the call is recorded; its strings are converted to C strings, which
    raises [TypeError] without any system call when one of them has a NUL
    byte; then the system call is made, and the process is replaced or
    [OSError] is raised with the [errno] of the failure. *)
Definition execve_call (path : string) (argv : list string) (env : loc)
    (d : gmap string string) : M unit := λ w,
  let w' := {| heap := heap w; os_environ := os_environ w;
               execve_result := execve_result w;
               dict_rank := dict_rank w;
               copy_rank := copy_rank w;
               trace := trace w ++ [EvExecve path argv env d] |} in
  if call_has_nul path argv d then (Raised TypeError, w')
  else match execve_result w path argv d with
       | None => (Replaced path argv d, w')
       | Some errno => (Raised (OSError errno), w')
       end.

(** [os.execve(path, argv, env)]: no object changes, whatever the
    outcome. *)
Definition os_execve (path : string) (argv : list string) (env : loc) : M unit :=
  d ← load env; execve_call path argv env d.

End Py.

(** ** The command *)

Module Command.
Import Py.

Section handle.

(** The module global [__file__]: where [livy_server.py] is installed. *)
Variable __file__ : string.

(** [Command.handle(self, *args, **kwargs)]. *)
Definition handle (args : list string) : M unit :=
  session_kind ←
    (if bool_decide (args = []) then mret "process"
     else arg0 ← getitem args 0; mret (Str.lower arg0));
  environ ← get_os_environ;
  env ← dict_copy environ;
  let args :=
    [ posixpath.join (posixpath.dirname __file__)
        [".."; ".."; ".."; ".."; "java"; "bin"; "livy-server"];
      session_kind ] in
  msg ← percent_format "Executing %r (%r) (%r)"
          [VBuiltin "bin"; VList args; VDict env];
  _ ← log INFO msg;
  arg0 ← getitem args 0;
  os_execve arg0 args env.

End handle.

End Command.

(** ** Observations on runs *)

Module Obs.
Import Py.

(** The events of a run that started in [w] and stopped in [w']. *)
Definition events_since (w w' : World) : list Event :=
  drop (length (trace w)) (trace w').

(** The calls of [os.execve] among some events: file, argument vector,
    environment object and its contents. *)
Definition execve_calls (t : list Event)
    : list (string * list string * loc * gmap string string) :=
  omap (λ ev, match ev with
              | EvExecve path argv env d => Some (path, argv, env, d)
              | EvLog _ _ => None
              end) t.




(** No byte of [s] is an upper-case ASCII letter. *)
Fixpoint no_upper (s : string) : bool :=
  match s with
  | EmptyString => true
  | String c r => negb (Str.is_upper c) && no_upper r
  end.

(** Every byte of [s] is printable ASCII, from the space to the tilde. *)
Definition printable_char (c : ascii) : bool :=
  let n := nat_of_ascii c in bool_decide (32 ≤ n) && bool_decide (n < 127).

Fixpoint printable (s : string) : bool :=
  match s with
  | EmptyString => true
  | String c r => printable_char c && printable r
  end.

End Obs.

(** ** A concrete installation, for the examples *)

Module Sample.
Import Py.

Definition file : string :=
  "/opt/hue/apps/spark/src/spark/management/commands/livy_server.py".

Definition livy_server : string :=
  "/opt/hue/apps/spark/src/spark/management/commands/../../../../java/bin/livy-server".

Definition environment : gmap string string :=
  {[ "HOME" := "/root"; "PATH" := "/usr/bin" ]}.

(** A world whose only object is [os.environ], at address 7, where
    [execve] answers [answer] whatever it is asked, where every dict is
    iterated with [PATH] first, and where a copy keeps the order of the
    dict copied. *)
Definition world (answer : option nat) : World :=
  {| heap := {[ 7 := environment ]}; os_environ := 7;
     execve_result := λ _ _ _, answer;
     dict_rank := λ _ k, if bool_decide (k = "PATH") then 0 else 1;
     copy_rank := λ rank _, rank;
     trace := [] |}.

(** [ENOENT]. *)
Definition ENOENT : nat := 2.

(** An installation under a directory named [café], in UTF-8: the bytes
    195 and 169 after [caf]. *)
Definition file_accent : string :=
  "/opt/caf" +:+ String "195" (String "169" "/hue/commands/livy_server.py").

(** The slots CPython 2.7 gives the keys [a], [c], [b], [d] in a table
    of eight. *)
Definition slots_abcd (k : string) : nat :=
  if bool_decide (k = "a") then 0
  else if bool_decide (k = "c") then 2
  else if bool_decide (k = "b") then 3
  else 5.

End Sample.

Example lower_YARN : Str.lower "YARN" = "yarn".
Proof. reflexivity. Qed.

Example lower_mixed : Str.lower "Spark-K8s_[Z]@" = "spark-k8s_[z]@".
Proof. reflexivity. Qed.

Example dirname_command :
  posixpath.dirname "/opt/hue/apps/spark/src/spark/management/commands/livy_server.py"
  = "/opt/hue/apps/spark/src/spark/management/commands".
Proof. reflexivity. Qed.

Example dirname_bare : posixpath.dirname "livy_server.py" = "".
Proof. reflexivity. Qed.

Example dirname_root : posixpath.dirname "/livy_server.py" = "/".
Proof. reflexivity. Qed.

Example dirname_double : posixpath.dirname "//a//b" = "//a".
Proof. reflexivity. Qed.

Example join_plain : posixpath.join "/a/b" [".."; "java"] = "/a/b/../java".
Proof. reflexivity. Qed.

Example join_empty_head : posixpath.join "" [".."; "java"] = "../java".
Proof. reflexivity. Qed.

Example repr_plain : Repr.repr_str "yarn" = "'yarn'".
Proof. reflexivity. Qed.

Example repr_with_quote : Repr.repr_str "it's" = String Repr.dquote ("it's" +:+ String Repr.dquote "").
Proof. reflexivity. Qed.

Example repr_with_backslash : Repr.repr_str "a\b" = "'a\\b'".
Proof. reflexivity. Qed.

Example repr_with_newline : Repr.repr_str (String "010" "x") = "'\nx'".
Proof. reflexivity. Qed.

Example repr_with_high_byte : Repr.repr_str (String "233" "") = "'\xe9'".
Proof. reflexivity. Qed.

Example repr_argv : Repr.repr_list ["/x/livy-server"; "process"] = "['/x/livy-server', 'process']".
Proof. reflexivity. Qed.

Example repr_env :
  Repr.repr_dict [("USER", "hue"); ("HOME", "/root")]
  = "{'USER': 'hue', 'HOME': '/root'}".
Proof. reflexivity. Qed.

(** ** Facts on the string primitives *)

Module StrFacts.

Lemma app_assoc (a b c : string) : (a +:+ b) +:+ c = a +:+ b +:+ c.
Proof.
  induction a as [|x a IH]; [done|].
  change (String x ((a +:+ b) +:+ c) = String x (a +:+ b +:+ c)).
  by rewrite IH.
Qed.

Lemma app_nil_r (a : string) : a +:+ "" = a.
Proof.
  induction a as [|x a IH]; [done|].
  change (String x (a +:+ "") = String x a). by rewrite IH.
Qed.

Lemma lower_length (s : string) : String.length (Str.lower s) = String.length s.
Proof. induction s as [|c s IH]; [done|]. cbn. by rewrite IH. Qed.

Lemma lower_char_not_upper (c : ascii) : Str.is_upper (Str.lower_char c) = false.
Proof. by destruct c as [[] [] [] [] [] [] [] []]. Qed.

Lemma lower_char_fixed (c : ascii) :
  Str.is_upper c = false → Str.lower_char c = c.
Proof. intros H. unfold Str.lower_char. by rewrite H. Qed.

Lemma lower_idempotent (s : string) : Str.lower (Str.lower s) = Str.lower s.
Proof.
  induction s as [|c s IH]; [done|]. cbn.
  rewrite IH. f_equal. apply lower_char_fixed, lower_char_not_upper.
Qed.

Lemma endswith_slash_app (x : string) (c : ascii) (r : string) :
  Str.endswith_slash (x +:+ String c r) = Str.endswith_slash (String c r).
Proof.
  induction x as [|y x IH]; [done|].
  change (String y x +:+ String c r) with (String y (x +:+ String c r)).
  destruct x as [|z x]; [done|]. exact IH.
Qed.

Lemma app_cons_nonempty (x : string) (c : ascii) (r : string) :
  x +:+ String c r ≠ "".
Proof. by destruct x. Qed.

(** A round of [join] after a path that ends in a byte other than a
    slash, with a relative component: a slash, then the component. *)
Lemma join_step_after (x : string) (c : ascii) (r b : string) :
  Str.startswith_slash b = false →
  Str.endswith_slash (String c r) = false →
  posixpath.join_step (x +:+ String c r) b = (x +:+ String c r) +:+ String "/" b.
Proof.
  intros Hb Hc. unfold posixpath.join_step. rewrite Hb.
  rewrite bool_decide_false by apply app_cons_nonempty.
  rewrite endswith_slash_app, Hc. reflexivity.
Qed.

(** What [join] makes of the seven components of the command, from any
    directory: nothing is collapsed. *)
Lemma join_livy_server (d : string) :
  posixpath.join d [".."; ".."; ".."; ".."; "java"; "bin"; "livy-server"]
  = d +:+ (if bool_decide (d = "") || Str.endswith_slash d then "" else "/")
      +:+ "../../../../java/bin/livy-server".
Proof.
  unfold posixpath.join. cbn [foldl].
  set (sep := if bool_decide (d = "") || Str.endswith_slash d then "" else "/").
  assert (posixpath.join_step d ".." = (d +:+ sep) +:+ "..") as ->.
  { unfold posixpath.join_step, sep. cbn [Str.startswith_slash].
    rewrite bool_decide_false by done.
    destruct (bool_decide (d = "") || Str.endswith_slash d).
    - by rewrite app_nil_r.
    - by rewrite app_assoc. }
  do 6 (rewrite join_step_after by done).
  rewrite !app_assoc. reflexivity.
Qed.














End StrFacts.

(** ** Running the primitives *)

Module Run.
Import Py.

Lemma bind_returned {A B} (m : M A) (k : A → M B) w a w' :
  m w = (Returned a, w') → (m ≫= k) w = k a w'.
Proof. intros H. unfold mbind, M_bind. by rewrite H. Qed.

Lemma bind_raised {A B} (m : M A) (k : A → M B) w e w' :
  m w = (Raised e, w') → (m ≫= k) w = (Raised e, w').
Proof. intros H. unfold mbind, M_bind. by rewrite H. Qed.

Lemma load_some l w d : heap w !! l = Some d → load l w = (Returned d, w).
Proof. intros H. unfold load. by rewrite H. Qed.

Lemma repr_dict_run l w d :
  heap w !! l = Some d →
  repr (VDict l) w
  = (Returned (Repr.repr_dict (items_by_rank (dict_rank w l) d)), w).
Proof.
  intros H. simpl. by rewrite (bind_returned _ _ _ _ _ (load_some _ _ _ H)).
Qed.

Lemma format_end w : percent_format "" [] w = (Returned "", w).
Proof. reflexivity. Qed.

Lemma format_lit c rest vals w t :
  c ≠ "%"%char →
  percent_format rest vals w = (Returned t, w) →
  percent_format (String c rest) vals w = (Returned (String c t), w).
Proof.
  intros Hc Ht. simpl. rewrite bool_decide_false by done.
  by rewrite (bind_returned _ _ _ _ _ Ht).
Qed.

Lemma format_r rest v vals w s t :
  repr v w = (Returned s, w) →
  percent_format rest vals w = (Returned t, w) →
  percent_format (String "%" (String "r" rest)) (v :: vals) w
  = (Returned (s +:+ t), w).
Proof.
  intros Hs Ht. simpl.
  rewrite (bind_returned _ _ _ _ _ Hs).
  by rewrite (bind_returned _ _ _ _ _ Ht).
Qed.

(** The line the command formats, in a world where [env] holds [d]. *)
Lemma format_line (argv : list string) env d w :
  heap w !! env = Some d →
  percent_format "Executing %r (%r) (%r)"
    [VBuiltin "bin"; VList argv; VDict env] w
  = (Returned ("Executing " +:+ Repr.repr_builtin "bin" +:+ " (" +:+
               Repr.repr_list argv +:+ ") (" +:+
               Repr.repr_dict (items_by_rank (dict_rank w env) d) +:+ ")"), w).
Proof.
  intros H. etrans.
  { repeat first
      [ apply format_end
      | apply format_r; [first [reflexivity | by apply repr_dict_run] |]
      | apply format_lit; [discriminate |] ]. }
  reflexivity.
Qed.

Section run.
Variable __file__ : string.

(** The whole run of [handle], from a world where [os.environ] holds
    [e]: the outcome is that of [os.execve], one dict has been made, and
    two events have happened. *)
Lemma handle_run args w e :
  heap w !! os_environ w = Some e →
  let kind := match args with [] => "process" | arg0 :: _ => Str.lower arg0 end in
  let env := fresh (dom (heap w)) in
  let rank := copy_rank w (dict_rank w (os_environ w)) e in
  let path := posixpath.join (posixpath.dirname __file__)
                [".."; ".."; ".."; ".."; "java"; "bin"; "livy-server"] in
  let argv := [path; kind] in
  let line := "Executing " +:+ Repr.repr_builtin "bin" +:+ " (" +:+
              Repr.repr_list argv +:+ ") (" +:+
              Repr.repr_dict (items_by_rank rank e) +:+ ")" in
  Command.handle __file__ args w
  = (if call_has_nul path argv e then Raised TypeError
     else match execve_result w path argv e with
          | None => Replaced path argv e
          | Some errno => Raised (OSError errno)
          end,
     {| heap := <[env := e]> (heap w); os_environ := os_environ w;
        execve_result := execve_result w;
        dict_rank := λ l', if bool_decide (l' = env) then rank
                           else dict_rank w l';
        copy_rank := copy_rank w;
        trace := trace w ++ [EvLog INFO line; EvExecve path argv env e] |}).
Proof.
  intros He kind env rank path argv line. unfold Command.handle.
  erewrite bind_returned; last first.
  { instantiate (1 := w). instantiate (1 := kind).
    destruct args as [|arg0 rest]; [done|].
    rewrite bool_decide_false by done. reflexivity. }
  erewrite bind_returned by reflexivity.
  erewrite bind_returned; last first.
  { unfold dict_copy. erewrite bind_returned by (by apply load_some).
    erewrite bind_returned by reflexivity. reflexivity. }
  cbv zeta.
  erewrite bind_returned; last first.
  { apply format_line. simpl. apply lookup_insert_eq. }
  cbn [dict_rank]. rewrite bool_decide_true by done.
  erewrite bind_returned by reflexivity.
  erewrite bind_returned by reflexivity.
  unfold os_execve. erewrite bind_returned; last first.
  { apply load_some. simpl. apply lookup_insert_eq. }
  unfold execve_call.
  cbn [heap os_environ execve_result dict_rank copy_rank trace].
  rewrite <-(assoc_L (++)).
  destruct (call_has_nul _ _ _); [reflexivity|].
  destruct (execve_result _ _ _ _); reflexivity.
Qed.

(** [handle] never returns to its caller: it raises or the process is
    replaced. *)
Lemma handle_never_returns args w (a : ()) :
  (Command.handle __file__ args w).1 ≠ Returned a.
Proof.
  destruct (heap w !! os_environ w) as [e|] eqn:He.
  - rewrite (handle_run args w e He). cbn [fst].
    destruct (call_has_nul _ _ _); [done|].
    by destruct (execve_result _ _ _ _).
  - unfold Command.handle.
    erewrite bind_returned; last first.
    { instantiate (1 := w).
      instantiate (1 := match args with [] => "process" | arg0 :: _ => Str.lower arg0 end).
      destruct args as [|arg0 rest]; [done|].
      rewrite bool_decide_false by done. reflexivity. }
    erewrite bind_returned by reflexivity.
    erewrite bind_raised; [done|].
    unfold dict_copy. erewrite bind_raised; [done|].
    unfold load. by rewrite He.
Qed.

(** The new object is not one of the old ones. *)
Lemma fresh_unused w : heap w !! fresh (dom (heap w)) = None.
Proof. apply not_elem_of_dom, is_fresh. Qed.

Lemma events_since_app w h r t :
  Obs.events_since w
    {| heap := h; os_environ := os_environ w;
       execve_result := execve_result w;
       dict_rank := r; copy_rank := copy_rank w;
       trace := trace w ++ t |} = t.
Proof. unfold Obs.events_since. cbn [trace]. by rewrite drop_app_length. Qed.

Lemma execve_calls_log_exec level msg path argv env d :
  Obs.execve_calls [EvLog level msg; EvExecve path argv env d]
  = [(path, argv, env, d)].
Proof. reflexivity. Qed.

(** The events of a run of [handle]. *)
Lemma handle_events args w e :
  heap w !! os_environ w = Some e →
  let kind := match args with [] => "process" | arg0 :: _ => Str.lower arg0 end in
  let path := posixpath.join (posixpath.dirname __file__)
                [".."; ".."; ".."; ".."; "java"; "bin"; "livy-server"] in
  let argv := [path; kind] in
  Obs.events_since w (Command.handle __file__ args w).2
  = [EvLog INFO ("Executing " +:+ Repr.repr_builtin "bin" +:+ " (" +:+
                 Repr.repr_list argv +:+ ") (" +:+
                 Repr.repr_dict
                   (items_by_rank
                      (copy_rank w (dict_rank w (os_environ w)) e) e)
                 +:+ ")");
     EvExecve path argv (fresh (dom (heap w))) e].
Proof.
  intros He. cbv zeta. rewrite (handle_run args w e He). cbn [snd].
  apply events_since_app.
Qed.


(** The items a dict is iterated over are its items. *)
Lemma items_by_rank_Permutation rank (d : gmap string string) :
  items_by_rank rank d ≡ₚ map_to_list d.
Proof. apply merge_sort_Permutation. Qed.


(** The objects after a run of [handle]. *)
Lemma handle_heap args w e :
  heap w !! os_environ w = Some e →
  heap (Command.handle __file__ args w).2
  = <[fresh (dom (heap w)) := e]> (heap w).
Proof. intros He. by rewrite (handle_run args w e He). Qed.

End run.
End Run.

(** ** The properties of the command *)

Section launcher.
Import Py.

Variable __file__ : string.

Implicit Types (args : list string) (w : World) (e : gmap string string).

(** The path expression of [handle], as the source writes it. *)
Local Abbreviation livy_server :=
  (posixpath.join (posixpath.dirname __file__)
     [".."; ".."; ".."; ".."; "java"; "bin"; "livy-server"]).

(** The session kind [handle] picks from its arguments. *)
Local Abbreviation kind_of args :=
  (match args with [] => "process" | arg0 :: _ => Str.lower arg0 end).

(** C1: whatever the arguments, a run of [handle] makes exactly one call
    of [os.execve]; its argument vector is the two-element list of the
    resolved path and the chosen session kind, the file it executes is
    the first element of that vector, and its environment is the snapshot
    [os.environ.copy()] made, a new dict that holds what [os.environ]
    held. *)
Theorem handle_execve_once args w e :
  heap w !! os_environ w = Some e →
  let w' := (Command.handle __file__ args w).2 in
  ∃ file argv env snapshot,
    Obs.execve_calls (Obs.events_since w w') = [(file, argv, env, snapshot)]
    ∧ argv = [livy_server; kind_of args]
    ∧ argv !! 0 = Some file
    ∧ heap w !! env = None
    ∧ heap w' !! env = Some snapshot
    ∧ snapshot = e.
Proof.
  intros He w'. exists livy_server, [livy_server; kind_of args].
  exists (fresh (dom (heap w))), e. subst w'.
  rewrite (Run.handle_events __file__ args w e He).
  rewrite (Run.handle_heap __file__ args w e He).
  rewrite Run.execve_calls_log_exec.
  repeat split.
  - apply Run.fresh_unused.
  - apply lookup_insert_eq.
Qed.

(** C2: with no argument the session kind given to the server is
    ["process"]; with arguments it is the first of them, lower-cased. *)
Theorem handle_session_kind args w e :
  heap w !! os_environ w = Some e →
  let w' := (Command.handle __file__ args w).2 in
  (args = [] →
   ∃ file path env,
     Obs.execve_calls (Obs.events_since w w')
     = [(file, [path; "process"], env, e)])
  ∧ (∀ arg0 rest, args = arg0 :: rest →
     ∃ file path env,
       Obs.execve_calls (Obs.events_since w w')
       = [(file, [path; Str.lower arg0], env, e)]).
Proof.
  intros He w'. subst w'.
  rewrite (Run.handle_events __file__ args w e He).
  rewrite Run.execve_calls_log_exec.
  split.
  - intros ->. by eexists _, _, _.
  - intros arg0 rest ->. by eexists _, _, _.
Qed.

(** C3: when the operating system is asked (no string of the call has
    a NUL byte) and refuses the [execve], [handle] ends with the
    [OSError] of that call (the spec's ProcessReplaceError) propagating,
    the process is not replaced, the call was made once, and the failed
    call changed nothing: the objects are those that existed before the
    run plus the snapshot, which still holds the environment. *)
Theorem handle_execve_failure args w e errno :
  heap w !! os_environ w = Some e →
  call_has_nul livy_server [livy_server; kind_of args] e = false →
  execve_result w livy_server [livy_server; kind_of args] e = Some errno →
  let r := Command.handle __file__ args w in
  r.1 = Raised (OSError errno)
  ∧ os_environ r.2 = os_environ w
  ∧ execve_result r.2 = execve_result w
  ∧ ∃ env,
      Obs.execve_calls (Obs.events_since w r.2)
      = [(livy_server, [livy_server; kind_of args], env, e)]
      ∧ heap w !! env = None
      ∧ heap r.2 = <[env := e]> (heap w).
Proof.
  intros He Hnul Hos r.
  pose proof (Run.handle_events __file__ args w e He) as Hev.
  pose proof (Run.handle_heap __file__ args w e He) as Hheap.
  pose proof (Run.handle_run __file__ args w e He) as Hrun.
  cbv zeta in Hev, Hrun. rewrite Hnul, Hos in Hrun. subst r.
  repeat split.
  - by rewrite Hrun.
  - by rewrite Hrun.
  - by rewrite Hrun.
  - exists (fresh (dom (heap w))).
    rewrite Hev, Hheap, Run.execve_calls_log_exec.
    repeat split. apply Run.fresh_unused.
Qed.

(** C4: the file [handle] executes is [java/bin/livy-server] joined
    after four [..] onto the directory of [__file__]; two runs, whatever
    their arguments and their worlds, execute the same file. *)
Theorem handle_path_fixed args1 args2 w1 w2 e1 e2 :
  heap w1 !! os_environ w1 = Some e1 →
  heap w2 !! os_environ w2 = Some e2 →
  ∃ argv1 env1 argv2 env2,
    Obs.execve_calls (Obs.events_since w1 (Command.handle __file__ args1 w1).2)
    = [(livy_server, argv1, env1, e1)]
    ∧ Obs.execve_calls (Obs.events_since w2 (Command.handle __file__ args2 w2).2)
      = [(livy_server, argv2, env2, e2)]
    ∧ argv1 !! 0 = Some livy_server
    ∧ argv2 !! 0 = Some livy_server.
Proof.
  intros He1 He2.
  rewrite (Run.handle_events __file__ args1 w1 e1 He1).
  rewrite (Run.handle_events __file__ args2 w2 e2 He2).
  rewrite !Run.execve_calls_log_exec.
  by eexists _, _, _, _.
Qed.

(** C5: the environment given to [os.execve] has the keys and values
    that [os.environ] has when the call is made, which are those it had
    when [handle] was entered; when the operating system is asked (no
    string of the call has a NUL byte) and accepts, it is the environment
    of the new program. *)
Theorem handle_environment_forwarded args w e :
  heap w !! os_environ w = Some e →
  let r := Command.handle __file__ args w in
  ∃ file argv env d,
    Obs.execve_calls (Obs.events_since w r.2) = [(file, argv, env, d)]
    ∧ heap r.2 !! os_environ r.2 = Some d
    ∧ d = e
    ∧ (call_has_nul file argv d = false →
       execve_result w file argv d = None → r.1 = Replaced file argv d).
Proof.
  intros He r. subst r.
  pose proof (Run.handle_run __file__ args w e He) as Hrun.
  cbv zeta in Hrun.
  rewrite (Run.handle_events __file__ args w e He).
  rewrite Run.execve_calls_log_exec.
  eexists _, _, _, _. split; [reflexivity|].
  rewrite Hrun. cbn [fst snd heap os_environ]. repeat split.
  - rewrite lookup_insert_ne; [done|].
    intros Heq. pose proof (Run.fresh_unused w) as Hf.
    rewrite Heq in Hf. congruence.
  - by intros -> ->.
Qed.

(** C6: two argument sequences with the same first element, or both
    empty, give the same run: the same outcome, the same objects and the
    same events, so the same path, session kind and argument vector.
    Arguments after the first are not read. *)
Theorem handle_ignores_extra_args args1 args2 w :
  head args1 = head args2 →
  Command.handle __file__ args1 w = Command.handle __file__ args2 w.
Proof.
  intros Hhd. unfold Command.handle.
  destruct args1 as [|a1 r1], args2 as [|a2 r2]; try discriminate Hhd.
  - reflexivity.
  - injection Hhd as ->.
    rewrite !bool_decide_false by done. reflexivity.
Qed.



(** C9: the path [handle] executes is the directory of [__file__], a
    slash unless that directory is empty or ends in one, and then the
    text [../../../../java/bin/livy-server] with its four [..] segments
    as written: [os.path.join] collapses nothing. *)
Theorem handle_path_not_normalized args w e :
  heap w !! os_environ w = Some e →
  let d := posixpath.dirname __file__ in
  let sep := if bool_decide (d = "") || Str.endswith_slash d then "" else "/" in
  let path := d +:+ sep +:+ "../../../../java/bin/livy-server" in
  ∃ argv env,
    Obs.execve_calls (Obs.events_since w (Command.handle __file__ args w).2)
    = [(path, argv, env, e)]
    ∧ argv !! 0 = Some path.
Proof.
  intros He d sep path.
  rewrite (Run.handle_events __file__ args w e He).
  rewrite Run.execve_calls_log_exec.
  rewrite (StrFacts.join_livy_server (posixpath.dirname __file__)).
  by eexists _, _.
Qed.

(** C10: a run of [handle] leaves [os.environ] as it was: the name is
    bound to the same object, that object and every other object that
    existed hold what they held, and the dict given to [os.execve] is
    another, new object.  This holds whatever the operating system
    answers, so on the failure path too. *)
Theorem handle_environ_untouched args w e :
  heap w !! os_environ w = Some e →
  let w' := (Command.handle __file__ args w).2 in
  os_environ w' = os_environ w
  ∧ heap w' !! os_environ w' = Some e
  ∧ (∀ l d, heap w !! l = Some d → heap w' !! l = Some d)
  ∧ ∃ file argv env d,
      Obs.execve_calls (Obs.events_since w w') = [(file, argv, env, d)]
      ∧ env ≠ os_environ w
      ∧ heap w !! env = None.
Proof.
  intros He w'. subst w'.
  pose proof (Run.fresh_unused w) as Hf.
  assert (fresh (dom (heap w)) ≠ os_environ w) as Hne.
  { intros Heq. rewrite Heq in Hf. congruence. }
  rewrite (Run.handle_events __file__ args w e He).
  rewrite (Run.handle_heap __file__ args w e He).
  rewrite Run.execve_calls_log_exec.
  assert (os_environ (Command.handle __file__ args w).2 = os_environ w) as ->.
  { by rewrite (Run.handle_run __file__ args w e He). }
  repeat split.
  - by rewrite lookup_insert_ne.
  - intros l d Hl. rewrite lookup_insert_ne; [done|]. congruence.
  - by eexists _, _, _, _.
Qed.

End launcher.

(** ** The properties at the sample installation *)

Section witnesses.
Import Py.

Lemma handle_execve_once_witness :
  heap (Sample.world None) !! os_environ (Sample.world None)
  = Some Sample.environment
  ∧ ∃ file argv env snapshot,
      Obs.execve_calls
        (Obs.events_since (Sample.world None)
           (Command.handle Sample.file ["YARN"] (Sample.world None)).2)
      = [(file, argv, env, snapshot)]
      ∧ argv = [Sample.livy_server; "yarn"]
      ∧ argv !! 0 = Some file
      ∧ heap (Sample.world None) !! env = None
      ∧ heap (Command.handle Sample.file ["YARN"] (Sample.world None)).2 !! env
        = Some snapshot
      ∧ snapshot = Sample.environment.
Proof.
  split; [reflexivity|].
  exact (handle_execve_once Sample.file ["YARN"] (Sample.world None)
           Sample.environment eq_refl).
Defined.

Lemma handle_session_kind_witness :
  heap (Sample.world None) !! os_environ (Sample.world None)
  = Some Sample.environment
  ∧ ∃ file path env,
      Obs.execve_calls
        (Obs.events_since (Sample.world None)
           (Command.handle Sample.file ["YARN"] (Sample.world None)).2)
      = [(file, [path; "yarn"], env, Sample.environment)].
Proof.
  split; [reflexivity|].
  exact (proj2 (handle_session_kind Sample.file ["YARN"] (Sample.world None)
                  Sample.environment eq_refl) "YARN" [] eq_refl).
Defined.

Lemma handle_execve_failure_witness :
  heap (Sample.world (Some Sample.ENOENT))
    !! os_environ (Sample.world (Some Sample.ENOENT))
  = Some Sample.environment
  ∧ call_has_nul Sample.livy_server [Sample.livy_server; "process"]
      Sample.environment = false
  ∧ execve_result (Sample.world (Some Sample.ENOENT)) Sample.livy_server
      [Sample.livy_server; "process"] Sample.environment
    = Some Sample.ENOENT
  ∧ (Command.handle Sample.file [] (Sample.world (Some Sample.ENOENT))).1
    = Raised (OSError Sample.ENOENT).
Proof.
  split; [reflexivity|]. split; [reflexivity|]. split; [reflexivity|].
  exact (proj1 (handle_execve_failure Sample.file []
                  (Sample.world (Some Sample.ENOENT)) Sample.environment
                  Sample.ENOENT eq_refl eq_refl eq_refl)).
Defined.

Lemma handle_path_fixed_witness :
  heap (Sample.world None) !! os_environ (Sample.world None)
  = Some Sample.environment
  ∧ heap (Sample.world (Some Sample.ENOENT))
      !! os_environ (Sample.world (Some Sample.ENOENT))
    = Some Sample.environment
  ∧ ∃ argv1 env1 argv2 env2,
      Obs.execve_calls
        (Obs.events_since (Sample.world None)
           (Command.handle Sample.file [] (Sample.world None)).2)
      = [(Sample.livy_server, argv1, env1, Sample.environment)]
      ∧ Obs.execve_calls
          (Obs.events_since (Sample.world (Some Sample.ENOENT))
             (Command.handle Sample.file ["yarn"; "extra"]
                (Sample.world (Some Sample.ENOENT))).2)
        = [(Sample.livy_server, argv2, env2, Sample.environment)]
      ∧ argv1 !! 0 = Some Sample.livy_server
      ∧ argv2 !! 0 = Some Sample.livy_server.
Proof.
  split; [reflexivity|]. split; [reflexivity|].
  exact (handle_path_fixed Sample.file [] ["yarn"; "extra"]
           (Sample.world None) (Sample.world (Some Sample.ENOENT))
           Sample.environment Sample.environment eq_refl eq_refl).
Defined.

Lemma handle_environment_forwarded_witness :
  heap (Sample.world None) !! os_environ (Sample.world None)
  = Some Sample.environment
  ∧ ∃ file argv env d,
      Obs.execve_calls
        (Obs.events_since (Sample.world None)
           (Command.handle Sample.file [] (Sample.world None)).2)
      = [(file, argv, env, d)]
      ∧ heap (Command.handle Sample.file [] (Sample.world None)).2
          !! os_environ (Command.handle Sample.file [] (Sample.world None)).2
        = Some d
      ∧ d = Sample.environment
      ∧ (call_has_nul file argv d = false →
         execve_result (Sample.world None) file argv d = None →
         (Command.handle Sample.file [] (Sample.world None)).1
         = Replaced file argv d).
Proof.
  split; [reflexivity|].
  exact (handle_environment_forwarded Sample.file [] (Sample.world None)
           Sample.environment eq_refl).
Defined.

Lemma handle_ignores_extra_args_witness :
  head ["yarn"; "--verbose"; "3"] = head ["yarn"]
  ∧ Command.handle Sample.file ["yarn"; "--verbose"; "3"] (Sample.world None)
    = Command.handle Sample.file ["yarn"] (Sample.world None).
Proof.
  split; [reflexivity|].
  exact (handle_ignores_extra_args Sample.file ["yarn"; "--verbose"; "3"]
           ["yarn"] (Sample.world None) eq_refl).
Defined.




Lemma handle_path_not_normalized_witness :
  heap (Sample.world None) !! os_environ (Sample.world None)
  = Some Sample.environment
  ∧ ∃ argv env,
      Obs.execve_calls
        (Obs.events_since (Sample.world None)
           (Command.handle Sample.file [] (Sample.world None)).2)
      = [("/opt/hue/apps/spark/src/spark/management/commands" +:+ "/" +:+
          "../../../../java/bin/livy-server", argv, env, Sample.environment)]
      ∧ argv !! 0
        = Some ("/opt/hue/apps/spark/src/spark/management/commands" +:+ "/"
                +:+ "../../../../java/bin/livy-server").
Proof.
  split; [reflexivity|].
  exact (handle_path_not_normalized Sample.file [] (Sample.world None)
           Sample.environment eq_refl).
Defined.

Lemma handle_environ_untouched_witness :
  heap (Sample.world (Some Sample.ENOENT))
    !! os_environ (Sample.world (Some Sample.ENOENT))
  = Some Sample.environment
  ∧ heap (Command.handle Sample.file ["yarn"]
            (Sample.world (Some Sample.ENOENT))).2
      !! os_environ (Command.handle Sample.file ["yarn"]
                       (Sample.world (Some Sample.ENOENT))).2
    = Some Sample.environment.
Proof.
  split; [reflexivity|].
  exact (proj1 (proj2 (handle_environ_untouched Sample.file ["yarn"]
                         (Sample.world (Some Sample.ENOENT))
                         Sample.environment eq_refl))).
Defined.

(** The scenarios of the command, run at the sample installation. *)

Example scenario_no_arguments :
  (Command.handle Sample.file [] (Sample.world None)).1
  = Replaced Sample.livy_server [Sample.livy_server; "process"]
      Sample.environment.
Proof. vm_compute. reflexivity. Qed.

Example scenario_YARN :
  (Command.handle Sample.file ["YARN"] (Sample.world None)).1
  = Replaced Sample.livy_server [Sample.livy_server; "yarn"]
      Sample.environment.
Proof. vm_compute. reflexivity. Qed.

Example scenario_target_absent :
  (Command.handle Sample.file [] (Sample.world (Some Sample.ENOENT))).1
  = Raised (OSError Sample.ENOENT).
Proof. vm_compute. reflexivity. Qed.

Example scenario_log_line :
  trace (Command.handle Sample.file ["YARN"; "extra"] (Sample.world None)).2
  = [EvLog INFO
       "Executing <built-in function bin> (['/opt/hue/apps/spark/src/spark/management/commands/../../../../java/bin/livy-server', 'yarn']) ({'PATH': '/usr/bin', 'HOME': '/root'})";
     EvExecve Sample.livy_server [Sample.livy_server; "yarn"] 8
       Sample.environment].
Proof. vm_compute. reflexivity. Qed.

Example scenario_log_line_accent :
  trace (Command.handle Sample.file_accent [] (Sample.world None)).2
  = [EvLog INFO
       "Executing <built-in function bin> (['/opt/caf\xc3\xa9/hue/commands/../../../../java/bin/livy-server', 'process']) ({'PATH': '/usr/bin', 'HOME': '/root'})";
     EvExecve
       (posixpath.join (posixpath.dirname Sample.file_accent)
          [".."; ".."; ".."; ".."; "java"; "bin"; "livy-server"])
       [posixpath.join (posixpath.dirname Sample.file_accent)
          [".."; ".."; ".."; ".."; "java"; "bin"; "livy-server"];
        "process"] 8 Sample.environment].
Proof. vm_compute. reflexivity. Qed.

Example scenario_nul_argument :
  (Command.handle Sample.file [String "000" "YARN"] (Sample.world None)).1
  = Raised TypeError.
Proof. vm_compute. reflexivity. Qed.

Example items_in_slot_order :
  items_by_rank Sample.slots_abcd
    {[ "a" := "1"; "b" := "2"; "c" := "3"; "d" := "4" ]}
  = [("a", "1"); ("c", "3"); ("b", "2"); ("d", "4")].
Proof. vm_compute. reflexivity. Qed.

Example scenario_not_collapsed :
  Sample.livy_server ≠ "/opt/hue/apps/spark/java/bin/livy-server".
Proof. discriminate. Qed.

End witnesses.

(** ** More facts on the primitives *)

Module MoreFacts.

Lemma lower_no_upper (s : string) : Obs.no_upper (Str.lower s) = true.
Proof.
  induction s as [|c s IH]; [done|]. cbn [Str.lower Obs.no_upper].
  by rewrite StrFacts.lower_char_not_upper, IH.
Qed.

Lemma rstrip_keeps_head (c : ascii) (r : string) :
  Str.all_slashes (String c r) = false →
  Str.startswith_slash (Str.rstrip_slash (String c r))
  = Str.startswith_slash (String c r).
Proof. intros H. cbn [Str.rstrip_slash]. by rewrite H. Qed.

(** [dirname] keeps a leading slash and adds none. *)
Lemma startswith_dirname (p : string) :
  Str.startswith_slash (posixpath.dirname p) = Str.startswith_slash p.
Proof.
  destruct p as [|c r]; [done|]. unfold posixpath.dirname.
  cbn [Str.upto_last_slash].
  destruct (Str.has_slash (String c r)) eqn:Hs; last first.
  { cbn [Str.has_slash] in Hs. apply orb_false_iff in Hs as [Hc _].
    cbn. by rewrite Hc. }
  rewrite bool_decide_false by done. cbn [negb andb].
  destruct (Str.all_slashes (String c (Str.upto_last_slash r))) eqn:Ha;
    cbn [negb]; [done|].
  by rewrite rstrip_keeps_head.
Qed.

Lemma startswith_app (a b : string) :
  a ≠ "" → Str.startswith_slash (a +:+ b) = Str.startswith_slash a.
Proof. by destruct a. Qed.

(** The joined path is absolute exactly when the directory is. *)
Lemma startswith_join_livy_server (d : string) :
  Str.startswith_slash
    (posixpath.join d [".."; ".."; ".."; ".."; "java"; "bin"; "livy-server"])
  = Str.startswith_slash d.
Proof.
  rewrite StrFacts.join_livy_server.
  destruct d as [|c r]; [done|]. by apply startswith_app.
Qed.

Lemma printable_app (a b : string) :
  Obs.printable (a +:+ b) = Obs.printable a && Obs.printable b.
Proof.
  induction a as [|c a IH]; [done|].
  change (String c a +:+ b) with (String c (a +:+ b)).
  cbn [Obs.printable]. rewrite IH. by destruct (Obs.printable_char c).
Qed.

Lemma escape_char_printable (q c : ascii) :
  q = Repr.squote ∨ q = Repr.dquote →
  Obs.printable (Repr.escape_char q c) = true.
Proof.
  intros [-> | ->]; destruct c as [[] [] [] [] [] [] [] []];
    vm_compute; reflexivity.
Qed.

Lemma escape_printable (q : ascii) (s : string) :
  q = Repr.squote ∨ q = Repr.dquote →
  Obs.printable (Repr.escape q s) = true.
Proof.
  intros Hq. induction s as [|c s IH]; [done|]. cbn [Repr.escape].
  by rewrite printable_app, escape_char_printable, IH.
Qed.

Lemma quote_for_cases (s : string) :
  Repr.quote_for s = Repr.squote ∨ Repr.quote_for s = Repr.dquote.
Proof. unfold Repr.quote_for. destruct (_ && _); auto. Qed.

(** [repr] of a [str] is printable ASCII, whatever the bytes of the
    string. *)
Lemma repr_str_printable (s : string) : Obs.printable (Repr.repr_str s) = true.
Proof.
  unfold Repr.repr_str. cbn [Obs.printable].
  rewrite printable_app, escape_printable by apply quote_for_cases.
  destruct (quote_for_cases s) as [-> | ->]; reflexivity.
Qed.

Lemma join_with_printable (sep : string) (l : list string) :
  Obs.printable sep = true →
  Forall (λ x, Obs.printable x = true) l →
  Obs.printable (Repr.join_with sep l) = true.
Proof.
  intros Hsep Hl. induction Hl as [|x l Hx Hl IH]; [done|].
  destruct l as [|y l]; [done|].
  change (Repr.join_with sep (x :: y :: l))
    with (x +:+ sep +:+ Repr.join_with sep (y :: l)).
  by rewrite !printable_app, Hx, Hsep, IH.
Qed.

Lemma repr_list_printable (l : list string) :
  Obs.printable (Repr.repr_list l) = true.
Proof.
  unfold Repr.repr_list. rewrite !printable_app.
  rewrite join_with_printable; [done..|].
  apply Forall_fmap, Forall_forall. intros x _. apply repr_str_printable.
Qed.

Lemma repr_dict_printable (items : list (string * string)) :
  Obs.printable (Repr.repr_dict items) = true.
Proof.
  unfold Repr.repr_dict. rewrite !printable_app.
  rewrite join_with_printable; [done..|].
  apply Forall_fmap, Forall_forall. intros [k v] _.
  unfold compose, Repr.repr_item. cbn [fst snd].
  rewrite !printable_app, !repr_str_printable. reflexivity.
Qed.

End MoreFacts.

(** ** Further properties of the command *)

Section beyond.
Import Py.

Variable __file__ : string.

Implicit Types (args : list string) (w : World) (e : gmap string string).

Local Abbreviation livy_server :=
  (posixpath.join (posixpath.dirname __file__)
     [".."; ".."; ".."; ".."; "java"; "bin"; "livy-server"]).

Local Abbreviation kind_of args :=
  (match args with [] => "process" | arg0 :: _ => Str.lower arg0 end).

(** X1: [handle] never returns to its caller, whatever the arguments and
    the world: it ends with an exception or with the process replaced. *)
Theorem handle_raises_or_replaces args w :
  (∃ exn, (Command.handle __file__ args w).1 = Raised exn)
  ∨ (∃ path argv d, (Command.handle __file__ args w).1 = Replaced path argv d).
Proof.
  pose proof (Run.handle_never_returns __file__ args w) as Hnr.
  destruct (Command.handle __file__ args w).1 as [[]|exn|path argv d].
  - by destruct (Hnr ()).
  - left. by exists exn.
  - right. by exists path, argv, d.
Qed.

(** X2: the first value the log line shows is the builtin function
    [bin], not the path: every line is
    [Executing <built-in function bin> (], the argument list, [) (], the
    environment with its items in the order the dict is iterated, and
    [)]. *)
Theorem handle_log_line_names_builtin args w e :
  heap w !! os_environ w = Some e →
  let argv := [livy_server; kind_of args] in
  ∃ items env,
    items ≡ₚ map_to_list e
    ∧ Obs.events_since w (Command.handle __file__ args w).2
      = [EvLog INFO ("Executing <built-in function bin> (" +:+
                     Repr.repr_list argv +:+ ") (" +:+
                     Repr.repr_dict items +:+ ")");
         EvExecve livy_server argv env e].
Proof.
  intros He argv. eexists _, _.
  split; [apply Run.items_by_rank_Permutation|].
  rewrite (Run.handle_events __file__ args w e He). reflexivity.
Qed.

(** X3: the first argument is read without regard to letter case: two
    argument sequences whose first elements have the same lower-case form
    give the same run. *)
Theorem handle_case_insensitive arg1 rest1 arg2 rest2 w :
  Str.lower arg1 = Str.lower arg2 →
  Command.handle __file__ (arg1 :: rest1) w
  = Command.handle __file__ (arg2 :: rest2) w.
Proof.
  intros Hlow. unfold Command.handle.
  rewrite !bool_decide_false by done.
  rewrite (Run.bind_returned _ _ w (Str.lower arg1) w) by reflexivity.
  symmetry.
  rewrite (Run.bind_returned _ _ w (Str.lower arg2) w) by reflexivity.
  by rewrite Hlow.
Qed.

(** X4: naming the default kind is the same as giving no argument: a
    first argument that lower-cases to [process] gives the run of the
    empty argument sequence. *)
Theorem handle_explicit_default arg0 rest w :
  Str.lower arg0 = "process" →
  Command.handle __file__ (arg0 :: rest) w = Command.handle __file__ [] w.
Proof.
  intros Hlow. unfold Command.handle.
  rewrite bool_decide_false by done.
  rewrite (Run.bind_returned _ _ w (Str.lower arg0) w) by reflexivity.
  symmetry.
  rewrite (Run.bind_returned _ _ w "process" w) by reflexivity.
  by rewrite Hlow.
Qed.

(** X5: the default is taken only when there is no argument at all: an
    empty string as first argument is handed on as an empty session
    kind. *)
Theorem handle_empty_string_kind rest w e :
  heap w !! os_environ w = Some e →
  ∃ env,
    Obs.execve_calls
      (Obs.events_since w (Command.handle __file__ ("" :: rest) w).2)
    = [(livy_server, [livy_server; ""], env, e)].
Proof.
  intros He. eexists.
  rewrite (Run.handle_events __file__ ("" :: rest) w e He).
  by rewrite Run.execve_calls_log_exec.
Qed.

(** X6: the session kind handed to the server never holds an upper-case
    ASCII letter, and when it comes from an argument it has the length of
    that argument. *)
Theorem handle_kind_lower_case args w e :
  heap w !! os_environ w = Some e →
  ∃ file path kind env,
    Obs.execve_calls (Obs.events_since w (Command.handle __file__ args w).2)
    = [(file, [path; kind], env, e)]
    ∧ Obs.no_upper kind = true
    ∧ (∀ arg0 rest, args = arg0 :: rest →
       String.length kind = String.length arg0).
Proof.
  intros He. eexists _, _, _, _.
  rewrite (Run.handle_events __file__ args w e He).
  rewrite Run.execve_calls_log_exec.
  split; [reflexivity|]. split.
  - destruct args as [|arg0 rest]; [reflexivity|].
    apply MoreFacts.lower_no_upper.
  - intros arg0 rest ->. apply StrFacts.lower_length.
Qed.

(** X7: the file executed is an absolute path exactly when [__file__]
    is: with a relative [__file__] the path handed to [os.execve] is
    relative too, left to the working directory of the process. *)
Theorem handle_path_absolute_iff args w e :
  heap w !! os_environ w = Some e →
  ∃ file argv env,
    Obs.execve_calls (Obs.events_since w (Command.handle __file__ args w).2)
    = [(file, argv, env, e)]
    ∧ Str.startswith_slash file = Str.startswith_slash __file__.
Proof.
  intros He. eexists _, _, _.
  rewrite (Run.handle_events __file__ args w e He).
  rewrite Run.execve_calls_log_exec.
  split; [reflexivity|].
  by rewrite MoreFacts.startswith_join_livy_server,
    MoreFacts.startswith_dirname.
Qed.

(** X8: the log line is printable ASCII from end to end, whatever bytes
    the arguments, [__file__] and the environment hold: [%r] escapes
    every control byte, so no argument or variable can break the line. *)
Theorem handle_log_line_printable args w e :
  heap w !! os_environ w = Some e →
  ∃ line call,
    Obs.events_since w (Command.handle __file__ args w).2
    = [EvLog INFO line; call]
    ∧ Obs.printable line = true.
Proof.
  intros He. eexists _, _.
  rewrite (Run.handle_events __file__ args w e He).
  split; [reflexivity|].
  rewrite !MoreFacts.printable_app.
  by rewrite MoreFacts.repr_list_printable, MoreFacts.repr_dict_printable.
Qed.

(** X9: calling [handle] again after a failed [os.execve] behaves as a
    first call: the same outcome, the same log line and the same call,
    with the environment unchanged and a new snapshot at another
    address. *)
Theorem handle_again_after_failure args1 args2 w e errno :
  heap w !! os_environ w = Some e →
  execve_result w livy_server [livy_server; kind_of args1] e = Some errno →
  let w1 := (Command.handle __file__ args1 w).2 in
  let r := Command.handle __file__ args2 w1 in
  r.1 = (Command.handle __file__ args2 w).1
  ∧ ∃ line env1 env2,
      Obs.events_since w (Command.handle __file__ args2 w).2
      = [EvLog INFO line; EvExecve livy_server [livy_server; kind_of args2] env1 e]
      ∧ Obs.events_since w1 r.2
        = [EvLog INFO line; EvExecve livy_server [livy_server; kind_of args2] env2 e]
      ∧ env1 ≠ env2
      ∧ heap r.2 !! os_environ r.2 = Some e.
Proof.
  intros He Hos w1 r.
  pose proof (Run.fresh_unused w) as Hf.
  assert (fresh (dom (heap w)) ≠ os_environ w) as Hne.
  { intros Heq. rewrite Heq in Hf. congruence. }
  pose proof (Run.handle_run __file__ args1 w e He) as Hrun1.
  cbv zeta in Hrun1.
  assert (heap w1 = <[fresh (dom (heap w)) := e]> (heap w)) as Hh1.
  { subst w1. by rewrite Hrun1. }
  assert (os_environ w1 = os_environ w) as Ho1.
  { subst w1. by rewrite Hrun1. }
  assert (execve_result w1 = execve_result w) as Hx1.
  { subst w1. by rewrite Hrun1. }
  assert (heap w1 !! os_environ w1 = Some e) as He1.
  { rewrite Hh1, Ho1. by rewrite lookup_insert_ne. }
  pose proof (Run.fresh_unused w1) as Hf1.
  pose proof (Run.handle_run __file__ args2 w1 e He1) as Hrun2.
  cbv zeta in Hrun2. fold r in Hrun2.
  split.
  { rewrite Hrun2, (Run.handle_run __file__ args2 w e He). cbn [fst].
    by rewrite Hx1. }
  assert (copy_rank w1 (dict_rank w1 (os_environ w1)) e
          = copy_rank w (dict_rank w (os_environ w)) e) as Hrank.
  { rewrite Ho1. subst w1. rewrite Hrun1. cbn [snd dict_rank copy_rank].
    by rewrite bool_decide_false. }
  eexists _, (fresh (dom (heap w))), (fresh (dom (heap w1))).
  split; [apply (Run.handle_events __file__ args2 w e He)|].
  split.
  { unfold r. rewrite (Run.handle_events __file__ args2 w1 e He1).
    by rewrite Hrank. }
  split.
  - intros Heq. rewrite <-Heq, Hh1, lookup_insert_eq in Hf1. congruence.
  - rewrite Hrun2. cbn [snd heap os_environ].
    rewrite lookup_insert_ne; [done|].
    intros Heq. rewrite Heq in Hf1. congruence.
Qed.

End beyond.

(** ** The further properties at the sample installation *)

Section more_witnesses.
Import Py.

Lemma handle_log_line_names_builtin_witness :
  heap (Sample.world None) !! os_environ (Sample.world None)
  = Some Sample.environment
  ∧ ∃ items env,
      items ≡ₚ map_to_list Sample.environment
      ∧ Obs.events_since (Sample.world None)
          (Command.handle Sample.file ["yarn"] (Sample.world None)).2
        = [EvLog INFO
             ("Executing <built-in function bin> (" +:+
              Repr.repr_list [Sample.livy_server; "yarn"] +:+ ") (" +:+
              Repr.repr_dict items +:+ ")");
           EvExecve Sample.livy_server [Sample.livy_server; "yarn"] env
             Sample.environment].
Proof.
  split; [reflexivity|].
  exact (handle_log_line_names_builtin Sample.file ["yarn"]
           (Sample.world None) Sample.environment eq_refl).
Defined.

Lemma handle_case_insensitive_witness :
  Str.lower "YARN" = Str.lower "Yarn"
  ∧ Command.handle Sample.file ["YARN"; "x"] (Sample.world None)
    = Command.handle Sample.file ["Yarn"] (Sample.world None).
Proof.
  split; [reflexivity|].
  exact (handle_case_insensitive Sample.file "YARN" ["x"] "Yarn" []
           (Sample.world None) eq_refl).
Defined.

Lemma handle_explicit_default_witness :
  Str.lower "Process" = "process"
  ∧ Command.handle Sample.file ["Process"] (Sample.world None)
    = Command.handle Sample.file [] (Sample.world None).
Proof.
  split; [reflexivity|].
  exact (handle_explicit_default Sample.file "Process" []
           (Sample.world None) eq_refl).
Defined.

Lemma handle_empty_string_kind_witness :
  heap (Sample.world None) !! os_environ (Sample.world None)
  = Some Sample.environment
  ∧ ∃ env,
      Obs.execve_calls
        (Obs.events_since (Sample.world None)
           (Command.handle Sample.file [""; "yarn"] (Sample.world None)).2)
      = [(Sample.livy_server, [Sample.livy_server; ""], env,
          Sample.environment)].
Proof.
  split; [reflexivity|].
  exact (handle_empty_string_kind Sample.file ["yarn"] (Sample.world None)
           Sample.environment eq_refl).
Defined.

Lemma handle_kind_lower_case_witness :
  heap (Sample.world None) !! os_environ (Sample.world None)
  = Some Sample.environment
  ∧ ∃ file path kind env,
      Obs.execve_calls
        (Obs.events_since (Sample.world None)
           (Command.handle Sample.file ["YARN"] (Sample.world None)).2)
      = [(file, [path; kind], env, Sample.environment)]
      ∧ Obs.no_upper kind = true
      ∧ (∀ arg0 rest, ["YARN"] = arg0 :: rest →
         String.length kind = String.length arg0).
Proof.
  split; [reflexivity|].
  exact (handle_kind_lower_case Sample.file ["YARN"] (Sample.world None)
           Sample.environment eq_refl).
Defined.

Lemma handle_path_absolute_iff_witness :
  heap (Sample.world None) !! os_environ (Sample.world None)
  = Some Sample.environment
  ∧ ∃ file argv env,
      Obs.execve_calls
        (Obs.events_since (Sample.world None)
           (Command.handle "commands/livy_server.py" [] (Sample.world None)).2)
      = [(file, argv, env, Sample.environment)]
      ∧ Str.startswith_slash file = false.
Proof.
  split; [reflexivity|].
  exact (handle_path_absolute_iff "commands/livy_server.py" []
           (Sample.world None) Sample.environment eq_refl).
Defined.

Lemma handle_log_line_printable_witness :
  heap (Sample.world None) !! os_environ (Sample.world None)
  = Some Sample.environment
  ∧ ∃ line call,
      Obs.events_since (Sample.world None)
        (Command.handle Sample.file [String "010" "yarn"]
           (Sample.world None)).2
      = [EvLog INFO line; call]
      ∧ Obs.printable line = true.
Proof.
  split; [reflexivity|].
  exact (handle_log_line_printable Sample.file [String "010" "yarn"]
           (Sample.world None) Sample.environment eq_refl).
Defined.

Lemma handle_again_after_failure_witness :
  heap (Sample.world (Some Sample.ENOENT))
    !! os_environ (Sample.world (Some Sample.ENOENT))
  = Some Sample.environment
  ∧ execve_result (Sample.world (Some Sample.ENOENT)) Sample.livy_server
      [Sample.livy_server; "process"] Sample.environment
    = Some Sample.ENOENT
  ∧ (Command.handle Sample.file ["yarn"]
       (Command.handle Sample.file []
          (Sample.world (Some Sample.ENOENT))).2).1
    = (Command.handle Sample.file ["yarn"]
         (Sample.world (Some Sample.ENOENT))).1.
Proof.
  split; [reflexivity|]. split; [reflexivity|].
  exact (proj1 (handle_again_after_failure Sample.file [] ["yarn"]
                  (Sample.world (Some Sample.ENOENT)) Sample.environment
                  Sample.ENOENT eq_refl eq_refl)).
Defined.

End more_witnesses.
